(** * ConstraintProjector (statsmodels/base/constraint.py)

    Shallow embedding of the class [ConstraintProjector].  The numeric
    work is delegated by the source to cvxpy: [prob.solve()] is kept
    abstract, as a Section variable [solve] that threads cvxpy's own
    solver state (the problem's solver cache) and reports a status and
    the new value of the variable [x].  Everything the class itself does
    (shape checks, parameter and variable assignments, status tests) is
    written out. *)

From Stdlib Require Import String List QArith Bool Arith Lia.
Import ListNotations.

(** Numeric arrays: a 1d array is a list of numbers. *)
Definition vec := list Q.

(** A 2d numpy array: its [shape] and its rows. *)
Record matrix := mk_matrix {
  shape0 : nat;
  shape1 : nat;
  entries : list vec
}.

(** The statuses cvxpy reports in [prob.status]. *)
Inductive status :=
| OPTIMAL
| OPTIMAL_INACCURATE
| INFEASIBLE
| INFEASIBLE_INACCURATE
| UNBOUNDED
| UNBOUNDED_INACCURATE
| USER_LIMIT
| SOLVER_ERROR.

Definition status_eqb (s t : status) : bool :=
  match s, t with
  | OPTIMAL, OPTIMAL | OPTIMAL_INACCURATE, OPTIMAL_INACCURATE
  | INFEASIBLE, INFEASIBLE | INFEASIBLE_INACCURATE, INFEASIBLE_INACCURATE
  | UNBOUNDED, UNBOUNDED | UNBOUNDED_INACCURATE, UNBOUNDED_INACCURATE
  | USER_LIMIT, USER_LIMIT | SOLVER_ERROR, SOLVER_ERROR => true
  | _, _ => false
  end.

(** The exceptions a call can end in.  The three [raise ValueError]
    sites of [__init__] on shapes are [DimensionMismatch]; the one on
    [status == 'infeasible'] is [InfeasibleRegion]; the one in [project]
    on a non-optimal status is [SolveFailure].  [IncompatibleDimensions]
    is the ValueError cvxpy raises for [A@self.x] when [A.shape[1]] is
    not the length of [x]; [InvalidValue] is the ValueError of cvxpy's
    value setter for an array of the wrong length; [SolverException] is
    an exception raised by [prob.solve] itself, propagated unchanged. *)
Inductive error :=
| DimensionMismatch
| InfeasibleRegion
| SolveFailure
| IncompatibleDimensions
| InvalidValue
| SolverException.

(** The data of the cvxpy problem built in [__init__]:
    minimize sum_squares(x - goal) s.t. x >= x_min, x <= x_max, A@x <= b. *)
Record problem := mk_problem {
  p_x_min : vec;
  p_x_max : vec;
  p_A : matrix;
  p_b : vec
}.

(** Keyword arguments passed to [prob.solve]. *)
Definition kwargs := list (string * bool).

(** [self.prob.solve(wamr_start=True)] in [project]. *)
Definition project_kwargs : kwargs := [("wamr_start"%string, true)].

(** Concrete instances of [prob.solve] for evaluating the class on
    explicit inputs.  [log_solve] keeps, as its solver state, the list of
    warm-start hints it has been called with, and reports [OPTIMAL] with
    the origin; [infeasible_solve] reports [INFEASIBLE];
    [inaccurate_solve] reports [OPTIMAL_INACCURATE] and no value. *)
Definition log_solve (c : list (option vec)) (p : problem) (g : vec)
  (x : option vec) (kw : kwargs) : list (option vec) * option (status * option vec) :=
  (x :: c, Some (OPTIMAL, Some (map (fun _ => 0%Q) g))).

Definition infeasible_solve (c : unit) (p : problem) (g : vec)
  (x : option vec) (kw : kwargs) : unit * option (status * option vec) :=
  (c, Some (INFEASIBLE, None)).

Definition inaccurate_solve (c : unit) (p : problem) (g : vec)
  (x : option vec) (kw : kwargs) : unit * option (status * option vec) :=
  (c, Some (OPTIMAL_INACCURATE, None)).

(** The region of the spec's example: x in [0,10]^2, x1 + x2 <= 5. *)
Definition demo_A : matrix := mk_matrix 1 2 [[1;1]].
Definition demo_problem : problem := mk_problem [0;0] [10;10] demo_A [5].

Section ConstraintProjector.

(** cvxpy's solver state kept inside the [Problem] object, its value for
    a freshly created problem, and [prob.solve]: from that state, the
    problem, the value of the parameter [goal] and the current value of
    the variable [x] (the warm-start hint, [None] before any assignment)
    and the keyword arguments, it gives the new solver state and either
    an exception ([None]) or the status and the new value of [x]. *)
Variable cache : Type.
Variable cache0 : cache.
Variable solve :
  cache -> problem -> vec -> option vec -> kwargs ->
  cache * option (status * option vec).

(** The attributes of a [ConstraintProjector] object: [self.prob] (which
    holds [self.x_min], [self.x_max], [self.A], [self.b]), the dimension
    [n_dim] of [self.x] and [self.goal], the values of [self.goal] and
    [self.x], [self.prob.status] and cvxpy's solver state. *)
Record projector := mk_projector {
  pr_prob : problem;
  pr_n : nat;
  pr_goal : option vec;
  pr_x : option vec;
  pr_status : option status;
  pr_cache : cache
}.

Definition set_goal_x (st : projector) (g : option vec) (x : option vec)
  : projector :=
  mk_projector (pr_prob st) (pr_n st) g x (pr_status st) (pr_cache st).

Definition set_solved (st : projector) (c : cache) (s : option status)
  (x : option vec) : projector :=
  mk_projector (pr_prob st) (pr_n st) (pr_goal st) x s c.

(** Lines 21-27: the three shape checks, in source order. *)
Definition validate (x_min x_max : vec) (A : matrix) (b : vec)
  : option error :=
  if negb (length x_min =? length x_max) then Some DimensionMismatch
  else if shape1 A =? length x_min then Some DimensionMismatch
  else if negb (length b =? shape0 A) then Some DimensionMismatch
  else None.

(** Lines 29-39: building the constraints and the problem; [A@self.x]
    needs [A.shape[1] == n_dim]. *)
Definition build_problem (x_min x_max : vec) (A : matrix) (b : vec)
  : error + problem :=
  if shape1 A =? length x_min then inr (mk_problem x_min x_max A b)
  else inl IncompatibleDimensions.

(** Lines 29-44: everything after the shape checks: the problem is built,
    [self.goal.value = x_min], [self.prob.solve()] (no keyword argument,
    [x] has no value yet) and the test [status == 'infeasible']. *)
Definition setup (x_min x_max : vec) (A : matrix) (b : vec)
  : error + projector :=
  match build_problem x_min x_max A b with
  | inl e => inl e
  | inr p =>
      let '(c, out) := solve cache0 p x_min None [] in
      match out with
      | None => inl SolverException
      | Some (s, xv) =>
          if status_eqb s INFEASIBLE then inl InfeasibleRegion
          else inr (mk_projector p (length x_min) (Some x_min) xv (Some s) c)
      end
  end.

(** [ConstraintProjector(x_min, x_max, A, b)]. *)
Definition init (x_min x_max : vec) (A : matrix) (b : vec)
  : error + projector :=
  match validate x_min x_max A b with
  | Some e => inl e
  | None => setup x_min x_max A b
  end.

(** Lines 55-56: [self.goal.value = goal; self.x.value = goal]. *)
Definition project_pre (st : projector) (goal : vec) : projector :=
  set_goal_x st (Some goal) (Some goal).

(** [self.project(goal)]: the new object state and the outcome.  cvxpy's
    value setter refuses an array of the wrong length before assigning. *)
Definition project (st : projector) (goal : vec)
  : projector * (error + option vec) :=
  if negb (length goal =? pr_n st) then (st, inl InvalidValue)
  else
    let st1 := project_pre st goal in
    let '(c, out) :=
      solve (pr_cache st1) (pr_prob st1) goal (pr_x st1) project_kwargs in
    match out with
    | None => (set_solved st1 c (pr_status st1) (pr_x st1), inl SolverException)
    | Some (s, xv) =>
        let st2 := set_solved st1 c (Some s) xv in
        if status_eqb s OPTIMAL then (st2, inr xv) else (st2, inl SolveFailure)
    end.

(** ** Properties *)

Lemma status_eqb_true s t : status_eqb s t = true <-> s = t.
Proof. destruct s, t; simpl; split; congruence. Qed.

Lemma length_eqb_refl (l : vec) n : length l = n -> (length l =? n) = true.
Proof. intros ->. apply Nat.eqb_refl. Qed.

(** No input gets through both the shape checks and the construction of
    [A@self.x]: [__init__] always raises a shape error. *)
Lemma init_always_shape_error x_min x_max A b :
  init x_min x_max A b = inl DimensionMismatch \/
  init x_min x_max A b = inl IncompatibleDimensions.
Proof.
  unfold init, validate, setup, build_problem.
  destruct (negb (length x_min =? length x_max)); [now left|].
  destruct (shape1 A =? length x_min); [now left|].
  destruct (negb (length b =? shape0 A)); [now left|now right].
Qed.

(** C1 (as the code stands): whenever [A] has exactly as many columns as
    [x_min] has entries, [__init__] raises DimensionMismatch, whatever the
    other inputs: the second shape check fires on matching shapes. *)
Theorem init_rejects_matching_columns x_min x_max k rows b :
  init x_min x_max (mk_matrix k (length x_min) rows) b = inl DimensionMismatch.
Proof.
  unfold init, validate; simpl.
  destruct (negb (length x_min =? length x_max)); [reflexivity|].
  now rewrite Nat.eqb_refl.
Qed.

(** C8: when [len(x_min) != len(x_max)], [__init__] raises
    DimensionMismatch, for every [A], [b] and solver: this check comes
    before any other. *)
Theorem init_length_mismatch_first x_min x_max A b :
  length x_min <> length x_max -> init x_min x_max A b = inl DimensionMismatch.
Proof.
  intros H. unfold init, validate.
  apply Nat.eqb_neq in H. now rewrite H.
Qed.

(** C7 (as the code stands): [__init__] never raises InfeasibleRegion,
    whatever the inputs and the solver.  On an empty box such as
    x_min = [0;5], x_max = [1;1] with A = [[1;1]], the inverted check of
    line 24 raises DimensionMismatch before the feasibility solve; with
    columns that differ, cvxpy's [A@self.x] raises first. *)
Theorem init_never_infeasible_region x_min x_max A b :
  init x_min x_max A b <> inl InfeasibleRegion.
Proof.
  unfold init, validate, setup, build_problem.
  destruct (negb (length x_min =? length x_max)); [discriminate|].
  destruct (shape1 A =? length x_min); [discriminate|].
  destruct (negb (length b =? shape0 A)); discriminate.
Qed.

(** C6: for a goal of the right length, [project] returns a value exactly
    when the solve reports 'optimal' (and returns the value of [x] the
    solve computed), and raises SolveFailure exactly when the solve
    reports any other status. *)
Theorem project_fails_iff_not_optimal st (goal : vec) :
  length goal = pr_n st ->
  let out := snd (solve (pr_cache st) (pr_prob st) goal (Some goal) project_kwargs) in
  (forall xv, snd (project st goal) = inr xv <-> out = Some (OPTIMAL, xv)) /\
  (snd (project st goal) = inl SolveFailure <->
   exists s xv, out = Some (s, xv) /\ s <> OPTIMAL).
Proof.
  intros Hlen out. unfold out, project.
  rewrite (length_eqb_refl _ _ Hlen). simpl.
  destruct (solve (pr_cache st) (pr_prob st) goal (Some goal) project_kwargs)
    as [c [[s xv]|]]; simpl.
  - destruct (status_eqb s OPTIMAL) eqn:E; simpl.
    + apply status_eqb_true in E; subst. split.
      * intros xv'. split; [now intros [= ->]|now intros [= ->]].
      * split; [discriminate|]. intros (s' & xv' & [= <- _] & Hn). now elim Hn.
    + split.
      * intros xv'. split; [discriminate|].
        intros [= -> _]. discriminate.
      * split; [intros _|reflexivity]. exists s, xv. split; [reflexivity|].
        intros ->. discriminate.
  - split.
    + intros xv. split; discriminate.
    + split; [discriminate|]. intros (s' & xv' & H & _). discriminate.
Qed.

(** C9 (amended): every call seeds [x] with the goal itself, so the value
    of [x] (and of the parameter [goal]) left by earlier calls has no
    effect on a call with a goal of the right length. *)
Theorem project_ignores_previous_iterate st (goal : vec) g0 x0 :
  length goal = pr_n st ->
  pr_x (project_pre st goal) = Some goal /\
  project (set_goal_x st g0 x0) goal = project st goal.
Proof.
  intros Hlen. split; [reflexivity|].
  unfold project. simpl.
  rewrite (length_eqb_refl _ _ Hlen). reflexivity.
Qed.

(** C10: for a goal of the right length, [project] assigns the goal to the
    parameter [goal] and to [x] before solving; when the call then raises,
    the parameter keeps the failing goal and the solver state keeps what
    the failing solve left: nothing is rolled back. *)
Theorem project_not_atomic st (goal : vec) :
  length goal = pr_n st ->
  pr_goal (project_pre st goal) = Some goal /\
  pr_x (project_pre st goal) = Some goal /\
  (forall e, snd (project st goal) = inl e ->
   pr_goal (fst (project st goal)) = Some goal /\
   pr_cache (fst (project st goal)) =
   fst (solve (pr_cache st) (pr_prob st) goal (Some goal) project_kwargs)).
Proof.
  intros Hlen. split; [reflexivity|]. split; [reflexivity|].
  intros e. unfold project.
  rewrite (length_eqb_refl _ _ Hlen). simpl.
  destruct (solve (pr_cache st) (pr_prob st) goal (Some goal) project_kwargs)
    as [c [[s xv]|]]; simpl.
  - destruct (status_eqb s OPTIMAL); simpl; [discriminate|]. auto.
  - auto.
Qed.

End ConstraintProjector.

Arguments mk_projector {cache}.
Arguments pr_prob {cache}.
Arguments pr_n {cache}.
Arguments pr_goal {cache}.
Arguments pr_x {cache}.
Arguments pr_status {cache}.
Arguments pr_cache {cache}.
Arguments set_goal_x {cache}.
Arguments setup {cache} cache0 solve.
Arguments init {cache} cache0 solve.
Arguments project_pre {cache}.
Arguments project {cache} solve.

(** ** Evaluations on explicit inputs *)

(** C8, at [x_min] of length 3 and [x_max] of length 2. *)
Lemma init_length_mismatch_first_witness :
  length ([0;0;0] : vec) <> length ([1;1] : vec) /\
  init tt infeasible_solve [0;0;0] [1;1] demo_A [5] = inl DimensionMismatch.
Proof.
  split; [simpl; lia|].
  apply init_length_mismatch_first; simpl; lia.
Defined.

(** C6, on the spec's example region with a solve reporting
    'optimal_inaccurate'. *)
Lemma project_fails_iff_not_optimal_witness :
  let st := mk_projector demo_problem 2 (Some [0;0]) (Some [0;0]) (Some OPTIMAL) tt in
  let g : vec := [10;10] in
  length g = pr_n st /\
  (let out := snd (inaccurate_solve (pr_cache st) (pr_prob st) g (Some g) project_kwargs) in
   (forall xv, snd (project inaccurate_solve st g) = inr xv <-> out = Some (OPTIMAL, xv)) /\
   (snd (project inaccurate_solve st g) = inl SolveFailure <->
    exists s xv, out = Some (s, xv) /\ s <> OPTIMAL)).
Proof.
  intros st g. split; [reflexivity|].
  apply project_fails_iff_not_optimal. reflexivity.
Defined.

(** C9: after a first call on the spec's example region, the second call
    hands the solve its own goal as warm-start value, not the value of [x]
    left by the first call ([log_solve] records the hints it receives). *)
Lemma project_seed_not_previous_iterate :
  let st0 := mk_projector demo_problem 2 (Some [0;0]) (Some [0;0]) (Some OPTIMAL) [None] in
  let st1 := fst (project log_solve st0 [1;1]) in
  let st2 := fst (project log_solve st1 [10;10]) in
  setup [] log_solve [0;0] [10;10] demo_A [5] = inr st0 /\
  pr_x st1 = Some [0;0] /\
  pr_cache st2 = [Some [10;10]; Some [1;1]; None] /\
  hd None (pr_cache st2) <> pr_x st1.
Proof.
  intros st0 st1 st2.
  split; [reflexivity|]. split; [reflexivity|]. split; [reflexivity|].
  simpl. discriminate.
Qed.

(** C9 (amended), on the spec's example region. *)
Lemma project_ignores_previous_iterate_witness :
  let st0 := mk_projector demo_problem 2 (Some [0;0]) (Some [0;0]) (Some OPTIMAL) [None] in
  let g : vec := [10;10] in
  length g = pr_n st0 /\
  pr_x (project_pre st0 g) = Some g /\
  project log_solve (set_goal_x st0 None None) g = project log_solve st0 g.
Proof.
  intros st0 g. split; [reflexivity|].
  apply project_ignores_previous_iterate. reflexivity.
Defined.

(** C10, on the spec's example region with a failing solve. *)
Lemma project_not_atomic_witness :
  let st := mk_projector demo_problem 2 (Some [0;0]) (Some [0;0]) (Some OPTIMAL) tt in
  let g : vec := [10;10] in
  length g = pr_n st /\
  pr_goal (project_pre st g) = Some g /\
  pr_x (project_pre st g) = Some g /\
  (forall e, snd (project inaccurate_solve st g) = inl e ->
   pr_goal (fst (project inaccurate_solve st g)) = Some g /\
   pr_cache (fst (project inaccurate_solve st g)) =
   fst (inaccurate_solve (pr_cache st) (pr_prob st) g (Some g) project_kwargs)).
Proof.
  intros st g. split; [reflexivity|].
  apply project_not_atomic. reflexivity.
Defined.

(** ** Further properties of the class *)

Section ProjectorFacts.

Context {cache : Type} (cache0 : cache).
Context (solve :
  cache -> problem -> vec -> option vec -> kwargs ->
  cache * option (status * option vec)).

(** [project] never touches the problem (x_min, x_max, A, b) or the
    dimension of [x] and [goal], whatever the goal and the outcome. *)
Theorem project_keeps_region st (goal : vec) :
  pr_prob (fst (project solve st goal)) = pr_prob st /\
  pr_n (fst (project solve st goal)) = pr_n st.
Proof.
  unfold project.
  destruct (negb (length goal =? pr_n st)); [auto|]. simpl.
  destruct (solve (pr_cache st) (pr_prob st) goal (Some goal) project_kwargs)
    as [c [[s xv]|]]; simpl; [|auto].
  destruct (status_eqb s OPTIMAL); simpl; auto.
Qed.

(** When the three shape checks of [__init__] pass, building [A@self.x]
    raises cvxpy's shape error: the feasibility solve is never reached. *)
Theorem init_checks_pass_incompatible x_min x_max A b :
  validate x_min x_max A b = None ->
  init cache0 solve x_min x_max A b = inl IncompatibleDimensions.
Proof.
  unfold init, validate, setup, build_problem. intros H.
  destruct (negb (length x_min =? length x_max)); [discriminate|].
  destruct (shape1 A =? length x_min); [discriminate|]. now rewrite H.
Qed.

End ProjectorFacts.


(** Inputs passing the three checks: A has 3 columns, x_min has 2. *)
Lemma init_checks_pass_incompatible_witness :
  validate [0;0] [10;10] (mk_matrix 1 3 [[1;1;1]]) [5] = None /\
  init tt infeasible_solve [0;0] [10;10] (mk_matrix 1 3 [[1;1;1]]) [5]
  = inl IncompatibleDimensions.
Proof.
  split; [reflexivity|].
  apply (init_checks_pass_incompatible tt infeasible_solve). reflexivity.
Defined.
